(** * example.ipynb: the MI-QSAR demonstration notebook

    The notebook is a sequence of code cells that call into Python's
    standard library ([os], [print], [len], ...), into [miqsar], [sklearn]
    and [seaborn].  This development embeds the cells as computations over
    the kernel's global namespace that emit one _action_ per operation on
    code or values the notebook does not define (a call, the read of an
    attribute or an item, an unpacking), and interprets the actions
    against an arbitrary behaviour of the libraries.

    Conventions of the embedding:
    - cells run top to bottom in a fresh kernel, and the first exception
      stops the run (the "Run All" discipline);
    - [import] statements bind names and are assumed to succeed;
    - [os.path.join], [os.mkdir], [print] and the unpacking of a value of
      Python's own types have their Python meaning on a world made of the
      directories and files that exist, the paths at which the operating
      system refuses to create a directory, and the standard output; every
      other call, and the unpacking of an object of a library, is answered
      by a parameter [lib], which may return any value or raise any
      exception and may change the whole world: the libraries' own state
      (random generators, fitted estimators), and also the directories, the
      files and the standard output;
    - what the front end makes of the value of a cell's last expression,
      and of the figure of the plotting cell, is not part of the world. *)

From Stdlib Require Import Ascii.
From stdpp Require Import gmap strings list.

Set Warnings "-register-all".
Open Scope string_scope.
Open Scope Z_scope.

(** ** Values *)

(** A Python value as the notebook can see it. *)
Inductive val : Type :=
| VNone
| VBool (b : bool)
| VInt (z : Z)
| VDec (m e : Z)                       (* the float literal m * 10^e *)
| VStr (s : string)
| VSeq (l : list val)                  (* a tuple or a list *)
| VDict (kv : list (string * val))     (* a dict literal with str keys *)
| VSym (q : string)                    (* a module, function or class, by qualified name *)
| VObj (a : N).                        (* a reference to an object a library owns *)

Inductive exn : Type :=
| FileExistsError
| FileNotFoundError
| PermissionError
| OSError
| NameError (x : string)
| TypeError
| ValueError
| IndexError
| LibraryError (name : string).

(** ** Actions: the calls that leave the notebook *)

Inductive action : Type :=
| ACall (f : val) (args : list val) (kwargs : list (string * val))
| AMethod (recv : val) (meth : string) (args : list val) (kwargs : list (string * val))
| AGetattr (v : val) (a : string)
| AGetitem (v i : val)
| AUnpack (v : val) (n : nat).         (* the items of [v], for an assignment to [n] names *)

Record event : Type := Ev { ev_act : action; ev_res : exn + val }.

(** ** Computations *)

Inductive prog (A : Type) : Type :=
| Ret (a : A)
| Throw (e : exn)
| Act (a : action) (k : val -> prog A).
Arguments Ret {A} a.
Arguments Throw {A} e.
Arguments Act {A} a k.

Fixpoint bind {A B} (p : prog A) (f : A -> prog B) : prog B :=
  match p with
  | Ret a => f a
  | Throw e => Throw e
  | Act a k => Act a (fun v => bind (k v) f)
  end.

Notation "x <- p ;; q" := (bind p (fun x => q))
  (at level 100, p at next level, right associativity).

Definition perform (a : action) : prog val := Act a Ret.

(** The kernel's global namespace. *)
Abbreviation Env := (gmap string val).

Definition expr : Type := Env -> prog val.
Definition stmt : Type := Env -> prog Env.

(** ** Expressions *)

(** The builtins the notebook refers to; a global of the same name shadows
    them. *)
Definition builtin_names : list string := ["print"; "len"; "list"; "range"].

Definition lit (v : val) : expr := fun _ => Ret v.

Definition name (x : string) : expr := fun env =>
  match env !! x with
  | Some v => Ret v
  | None =>
      if bool_decide (x ∈ builtin_names) then Ret (VSym ("builtins." ++ x))
      else Throw (NameError x)
  end.

Fixpoint eval_list (es : list expr) (env : Env) : prog (list val) :=
  match es with
  | [] => Ret []
  | e :: es' => v <- e env ;; vs <- eval_list es' env ;; Ret (v :: vs)
  end.

Fixpoint eval_kw (kw : list (string * expr)) (env : Env) : prog (list (string * val)) :=
  match kw with
  | [] => Ret []
  | (k, e) :: kw' => v <- e env ;; vs <- eval_kw kw' env ;; Ret ((k, v) :: vs)
  end.

(** [(e1, ..., en)] *)
Definition tuple (es : list expr) : expr := fun env =>
  vs <- eval_list es env ;; Ret (VSeq vs).

(** [{'k1': e1, ...}] *)
Definition dict (kw : list (string * expr)) : expr := fun env =>
  kvs <- eval_kw kw env ;; Ret (VDict kvs).

(** [e.a] *)
Definition attr (e : expr) (a : string) : expr := fun env =>
  v <- e env ;; perform (AGetattr v a).

(** [e[i]] *)
Definition index (e i : expr) : expr := fun env =>
  v <- e env ;; j <- i env ;; perform (AGetitem v j).

(** [f(args, kwargs)] *)
Definition call (f : expr) (args : list expr) (kw : list (string * expr)) : expr := fun env =>
  fv <- f env ;;
  a <- eval_list args env ;;
  k <- eval_kw kw env ;;
  perform (ACall fv a k).

(** [e.m(args, kwargs)]: the attribute lookup and the call, as one action. *)
Definition mcall (e : expr) (m : string) (args : list expr) (kw : list (string * expr)) : expr := fun env =>
  rv <- e env ;;
  a <- eval_list args env ;;
  k <- eval_kw kw env ;;
  perform (AMethod rv m a k).

(** *** String formatting *)

(** [format(v, spec)], which must give a str. *)
Definition format_value (v : val) (spec : string) : prog string :=
  r <- perform (ACall (VSym "builtins.format") [v; VStr spec] []) ;;
  match r with
  | VStr s => Ret s
  | _ => Throw TypeError
  end.

Inductive fpiece : Type :=
| FText (s : string)
| FExpr (e : expr).

(** An f-string: each field is evaluated and formatted in turn. *)
Fixpoint fstring_go (ps : list fpiece) (env : Env) : prog string :=
  match ps with
  | [] => Ret ""
  | FText s :: ps' => r <- fstring_go ps' env ;; Ret (s ++ r)
  | FExpr e :: ps' =>
      v <- e env ;; s <- format_value v "" ;;
      r <- fstring_go ps' env ;; Ret (s ++ r)
  end.

Definition fstring (ps : list fpiece) : expr := fun env =>
  s <- fstring_go ps env ;; Ret (VStr s).

(** The pieces of a [str.format] template with automatically numbered
    fields [{}] and [{:spec}]. *)
Inductive tpiece : Type :=
| TText (s : string)
| TField (spec : string).

Definition field_spec (f : string) : option string :=
  match f with
  | EmptyString => Some ""
  | String c f' => if Ascii.eqb c ":"%char then Some f' else None
  end.

Fixpoint scan_template (s acc : string) (infield : bool) : option (list tpiece) :=
  match s with
  | EmptyString => if infield then None else Some [TText acc]
  | String c s' =>
      if infield then
        if Ascii.eqb c "}"%char then
          match field_spec acc, scan_template s' "" false with
          | Some sp, Some ps => Some (TField sp :: ps)
          | _, _ => None
          end
        else scan_template s' (acc ++ String c "") true
      else
        if Ascii.eqb c "{"%char then
          match scan_template s' "" true with
          | Some ps => Some (TText acc :: ps)
          | None => None
          end
        else scan_template s' (acc ++ String c "") false
  end.

Fixpoint render (ps : list tpiece) (vs : list val) : prog string :=
  match ps with
  | [] => Ret ""
  | TText s :: ps' => r <- render ps' vs ;; Ret (s ++ r)
  | TField sp :: ps' =>
      match vs with
      | [] => Throw IndexError
      | v :: vs' => s <- format_value v sp ;; r <- render ps' vs' ;; Ret (s ++ r)
      end
  end.

(** ['template'.format(args)] *)
Definition str_format (template : string) (args : list expr) : expr := fun env =>
  vs <- eval_list args env ;;
  match scan_template template "" false with
  | None => Throw ValueError
  | Some ps => s <- render ps vs ;; Ret (VStr s)
  end.

(** ** Statements *)

(** [x = e] *)
Definition assign (x : string) (e : expr) : stmt := fun env =>
  v <- e env ;; Ret (<[x := v]> env).

Fixpoint bind_names (xs : list string) (vs : list val) (env : Env) : option Env :=
  match xs, vs with
  | [], [] => Some env
  | x :: xs', v :: vs' => bind_names xs' vs' (<[x := v]> env)
  | _, _ => None
  end.

(** [x1, ..., xn = e]: the value of [e] is iterated; the names are bound
    when it gives as many items as there are names, and none is bound
    otherwise.  The items arrive as a sequence. *)
Definition assign_tuple (xs : list string) (e : expr) : stmt := fun env =>
  v <- e env ;;
  r <- perform (AUnpack v (length xs)) ;;
  match r with
  | VSeq vs =>
      match bind_names xs vs env with
      | Some env' => Ret env'
      | None => Throw ValueError
      end
  | _ => Throw TypeError
  end.

(** An expression evaluated for its effect. *)
Definition do (e : expr) : stmt := fun env =>
  _ <- e env ;; Ret env.

(** [import m] *)
Definition import (m : string) : stmt := fun env =>
  Ret (<[m := VSym m]> env).

(** [import m as x] *)
Definition import_as (m x : string) : stmt := fun env =>
  Ret (<[x := VSym m]> env).

(** [from m import x1, ..., xn] *)
Definition from_import (m : string) (xs : list string) : stmt := fun env =>
  Ret (foldl (fun acc x => <[x := VSym (m ++ "." ++ x)]> acc) env xs).

Fixpoint exec (ss : list stmt) (env : Env) : prog Env :=
  match ss with
  | [] => Ret env
  | s :: ss' => env' <- s env ;; exec ss' env'
  end.

(** ** The notebook *)

Module Notebook.

(** Code cell 1: descriptors of up to 100 conformations per molecule. *)
Definition cell_descriptors : list stmt :=
  [ import "os";
    from_import "miqsar.utils" ["calc_3d_pmapper"];
    assign "nconfs" (lit (VInt 100));
    assign "ncpu" (lit (VInt 10));
    assign "dataset_file" (lit (VStr "datasets/CHEMBL1075104.smi"));
    assign "descriptors_folder"
      (mcall (attr (name "os") "path") "join" [lit (VStr "descriptors")] []);
    do (mcall (name "os") "mkdir" [name "descriptors_folder"] []);
    assign_tuple ["bags"; "labels"; "molid"]
      (call (name "calc_3d_pmapper") [name "dataset_file"]
         [("nconfs", name "nconfs"); ("stereo", lit (VBool false));
          ("path", name "descriptors_folder"); ("ncpu", name "ncpu")]);
    do (call (name "print")
          [fstring
             [FText "There are ";
              FExpr (call (name "len") [name "bags"] []);
              FText " molecules encoded with ";
              FExpr (index (attr (index (name "bags") (lit (VInt 0))) "shape") (lit (VInt 1)));
              FText " pmapper descriptors"]] []) ].

(** Code cell 2: training and test set, scaled descriptors. *)
Definition cell_split : list stmt :=
  [ from_import "sklearn.model_selection" ["train_test_split"];
    from_import "miqsar.utils" ["scale_descriptors"];
    assign_tuple ["x_train"; "x_test"; "y_train"; "y_test"; "molid_train"; "molid_test"]
      (call (name "train_test_split") [name "bags"; name "labels"; name "molid"]
         [("random_state", lit (VInt 42))]);
    assign_tuple ["x_train"; "x_test"]
      (call (name "scale_descriptors") [name "x_train"; name "x_test"] []) ].

(** Code cell 3: estimators and hyperparameters. *)
Definition cell_settings : list stmt :=
  [ from_import "miqsar.estimators.wrappers"
      ["BagWrapperMLPRegressor"; "InstanceWrapperMLPRegressor"];
    from_import "miqsar.estimators.attention_nets" ["AttentionNetRegressor"];
    from_import "miqsar.estimators.mi_nets" ["BagNetRegressor"; "InstanceNetRegressor"];
    from_import "sklearn.metrics" ["r2_score"];
    assign "n_epoch" (lit (VInt 500));
    assign "batch_size" (lit (VInt 128));
    assign "lr" (lit (VDec 1 (-3)));
    assign "weight_decay" (lit (VDec 1 (-2)));
    assign "seed" (lit (VInt 42));
    assign "init_cuda" (lit (VBool false)) ].

(** [(x_train[0].shape[-1], 256, 128, 64)] *)
Definition ndim_expr : expr :=
  tuple [index (attr (index (name "x_train") (lit (VInt 0))) "shape") (lit (VInt (-1)));
         lit (VInt 256); lit (VInt 128); lit (VInt 64)].

(** Code cell 4: the Instance-Wrapper network. *)
Definition cell_instance_wrapper : list stmt :=
  [ assign "ndim" ndim_expr;
    assign "ins_net"
      (call (name "InstanceWrapperMLPRegressor") []
         [("ndim", name "ndim"); ("init_cuda", name "init_cuda")]);
    do (mcall (name "ins_net") "fit" [name "x_train"; name "y_train"]
          [("n_epoch", name "n_epoch"); ("batch_size", name "batch_size");
           ("weight_decay", name "weight_decay"); ("lr", name "lr")]);
    assign "predictions" (mcall (name "ins_net") "predict" [name "x_test"] []);
    do (call (name "print")
          [str_format "3D/MI/Instance-Wrapper: r2_score test = {:.2f}"
             [call (name "r2_score") [name "y_test"; name "predictions"] []]] []) ].

(** Code cell 5: the Bag-Attention network. *)
Definition cell_attention : list stmt :=
  [ assign "ndim" ndim_expr;
    assign "det_ndim" (tuple [lit (VInt 64)]);
    assign "instance_dropout" (lit (VDec 95 (-2)));
    assign "att_net"
      (call (name "AttentionNetRegressor") []
         [("ndim", name "ndim"); ("det_ndim", name "det_ndim");
          ("init_cuda", name "init_cuda")]);
    do (mcall (name "att_net") "fit" [name "x_train"; name "y_train"]
          [("n_epoch", name "n_epoch"); ("instance_dropout", name "instance_dropout");
           ("batch_size", name "batch_size"); ("weight_decay", name "weight_decay");
           ("lr", name "lr")]);
    assign "predictions" (mcall (name "att_net") "predict" [name "x_test"] []);
    do (call (name "print")
          [str_format "3D/MI/Bag-AttentionNet: r2_score test = {:.2f}"
             [call (name "r2_score") [name "y_test"; name "predictions"] []]] []) ].

(** Code cell 6: the attention weights of one molecule, plotted. *)
Definition cell_weights : list stmt :=
  [ import_as "seaborn" "sns";
    assign "instance_weights"
      (mcall (name "att_net") "get_instance_weights" [name "x_test"] []);
    assign "n" (lit (VInt 2));
    do (mcall (name "sns") "set" []
          [("rc", dict [("figure.figsize", tuple [lit (VInt 25); lit (VInt 8)])])]);
    assign "x"
      (call (name "list")
         [call (name "range")
            [call (name "len") [index (name "instance_weights") (name "n")] []] []] []);
    assign "y" (index (name "instance_weights") (name "n"));
    assign "plot" (mcall (name "sns") "barplot" [] [("x", name "x"); ("y", name "y")]);
    do (mcall (name "plot") "set" []
          [("xlabel", lit (VStr "Conformation index"));
           ("ylabel", lit (VStr "Attention weight"))]) ].

(** Code cell 7: one lowest-energy conformation per molecule. *)
Definition cell_single : list stmt :=
  [ assign_tuple ["bags"; "labels"; "molid"]
      (call (name "calc_3d_pmapper") [name "dataset_file"]
         [("nconfs", lit (VInt 1)); ("stereo", lit (VBool false));
          ("path", name "descriptors_folder"); ("ncpu", name "ncpu")]);
    do (call (name "print")
          [fstring
             [FText "There are ";
              FExpr (call (name "len") [name "bags"] []);
              FText " molecules encoded with ";
              FExpr (index (attr (index (name "bags") (lit (VInt 0))) "shape") (lit (VInt 1)));
              FText " pmapper descriptors"]] []);
    assign_tuple ["x_train"; "x_test"; "y_train"; "y_test"; "molid_train"; "molid_test"]
      (call (name "train_test_split") [name "bags"; name "labels"; name "molid"]
         [("random_state", lit (VInt 42))]);
    assign_tuple ["x_train"; "x_test"]
      (call (name "scale_descriptors") [name "x_train"; name "x_test"] []);
    assign "ndim" ndim_expr;
    assign "ins_net"
      (call (name "InstanceWrapperMLPRegressor") []
         [("ndim", name "ndim"); ("init_cuda", name "init_cuda")]);
    do (mcall (name "ins_net") "fit" [name "x_train"; name "y_train"]
          [("n_epoch", name "n_epoch"); ("batch_size", name "batch_size");
           ("weight_decay", name "weight_decay"); ("lr", name "lr")]);
    assign "predictions" (mcall (name "ins_net") "predict" [name "x_test"] []);
    do (call (name "print")
          [str_format "3D/SI/Net: r2_score test = {:.2f}"
             [call (name "r2_score") [name "y_test"; name "predictions"] []]] []) ].

(** The code cells in document order; the last two are empty. *)
Definition cells : list (list stmt) :=
  [ cell_descriptors; cell_split; cell_settings; cell_instance_wrapper;
    cell_attention; cell_weights; cell_single; []; [] ].

Definition program : list stmt := concat cells.

End Notebook.

(** ** The world and the interpretation of actions *)

Record World (L : Type) : Type := MkWorld {
  dirs : gset string;                (* the directories that exist, by path *)
  files : gset string;               (* the other files that exist, by path *)
  refused : string -> option exn;    (* the error with which the operating system refuses
                                        to create a directory at a path, when it does:
                                        no permission, no parent, no space *)
  stdout : list string;              (* the lines printed so far *)
  ext : L                            (* everything else the libraries own *)
}.
Arguments MkWorld {L} dirs files refused stdout ext.
Arguments dirs {L} w.
Arguments files {L} w.
Arguments refused {L} w p.
Arguments stdout {L} w.
Arguments ext {L} w.

Definition add_dir {L} (p : string) (w : World L) : World L :=
  MkWorld ({[p]} ∪ dirs w) (files w) (refused w) (stdout w) (ext w).
Definition emit {L} (s : string) (w : World L) : World L :=
  MkWorld (dirs w) (files w) (refused w) (stdout w ++ [s]) (ext w).
Definition with_ext {L} (s : L) (w : World L) : World L :=
  MkWorld (dirs w) (files w) (refused w) (stdout w) s.

(** [os.path.join(p)] of one component is that component. *)
Definition os_path_join {L} (args : list val) (w : World L) : option ((exn + val) * World L) :=
  match args with
  | [VStr p] => Some (inr (VStr p), w)
  | _ => None
  end.

(** [os.mkdir(p)] raises [FileExistsError] when a directory or a file is
    at [p] already, raises the error of the operating system when it
    refuses ([PermissionError], [FileNotFoundError], another [OSError]), and
    creates the directory otherwise.  A call that raises leaves the world
    as it is. *)
Definition os_mkdir {L} (args : list val) (w : World L) : option ((exn + val) * World L) :=
  match args with
  | [VStr p] =>
      if bool_decide (p ∈ dirs w ∪ files w) then Some (inl FileExistsError, w)
      else
        match refused w p with
        | Some e => Some (inl e, w)
        | None => Some (inr VNone, add_dir p w)
        end
  | _ => None
  end.

(** [print(s)] of one str writes it as a line. *)
Definition builtins_print {L} (args : list val) (w : World L) : option ((exn + val) * World L) :=
  match args with
  | [VStr s] => Some (inr VNone, emit s w)
  | _ => None
  end.

(** A byte [10xxxxxx] continues the character that the bytes before it
    began: a str is held as its UTF-8 bytes. *)
Definition continues (c : ascii) : bool :=
  match c with
  | Ascii _ _ _ _ _ _ b6 b7 => b7 && negb b6
  end.

Definition continued (s : string) : bool :=
  match s with
  | String d _ => continues d
  | EmptyString => false
  end.

(** The characters of a str. *)
Fixpoint chars (s : string) : list string :=
  match s with
  | EmptyString => []
  | String c s' =>
      match chars s' with
      | t :: ts => if continued s' then String c t :: ts else String c "" :: t :: ts
      | [] => [String c ""]
      end
  end.

(** The keys of a dict, each once, in the order in which they first occur. *)
Fixpoint keys (kv : list (string * val)) (seen : list string) : list string :=
  match kv with
  | [] => []
  | (k, _) :: kv' =>
      if existsb (String.eqb k) seen then keys kv' seen else k :: keys kv' (k :: seen)
  end.

(** What iterating a value of Python's own types gives: the elements of a
    tuple or list, the characters of a str, the keys of a dict; [None], a
    bool, an int and a float are not iterable.  What a module, function,
    class or object of a library gives is not decided here. *)
Definition items (v : val) : option (exn + val) :=
  match v with
  | VSeq l => Some (inr (VSeq l))
  | VStr s => Some (inr (VSeq (map VStr (chars s))))
  | VDict kv => Some (inr (VSeq (map VStr (keys kv []))))
  | VNone | VBool _ | VInt _ | VDec _ _ => Some (inl TypeError)
  | VSym _ | VObj _ => None
  end.

(** The actions whose meaning is Python's own: an attribute of a module
    is the qualified symbol, [os.path.join], [os.mkdir] and [print] are as
    above, and a value of Python's own types is unpacked into its items.
    The name of the attribute or method is looked at before the receiver. *)
Definition runtime {L} (a : action) (w : World L) : option ((exn + val) * World L) :=
  match a with
  | AUnpack v _ =>
      match items v with
      | Some r => Some (r, w)
      | None => None
      end
  | AGetattr (VSym q) x => Some (inr (VSym (q ++ "." ++ x)), w)
  | AMethod recv m args [] =>
      if String.eqb m "join" then
        match recv with
        | VSym q => if String.eqb q "os.path" then os_path_join args w else None
        | _ => None
        end
      else if String.eqb m "mkdir" then
        match recv with
        | VSym q => if String.eqb q "os" then os_mkdir args w else None
        | _ => None
        end
      else None
  | ACall (VSym q) args [] =>
      if String.eqb q "builtins.print" then builtins_print args w else None
  | _ => None
  end.

Definition outcome (A : Type) : Type := exn + A.

Section Interp.
Context {L : Type}.
(** The behaviour of every other action: an answer and a new world, from
    the action and the world. *)
Variable lib : action -> World L -> (exn + val) * World L.

Definition handle (a : action) (w : World L) : (exn + val) * World L :=
  match runtime a w with
  | Some r => r
  | None => lib a w
  end.

(** The events of a run, the world it ends in, and its outcome. *)
Fixpoint run {A} (p : prog A) (w : World L) : list event * World L * outcome A :=
  match p with
  | Ret a => ([], w, inr a)
  | Throw e => ([], w, inl e)
  | Act a k =>
      match handle a w with
      | (inl e, w') => ([Ev a (inl e)], w', inl e)
      | (inr v, w') =>
          let '(t, w'', o) := run (k v) w' in (Ev a (inr v) :: t, w'', o)
      end
  end.

(** Running a cell from a namespace. *)
Definition run_cell (c : list stmt) (env : Env) (w : World L) :=
  run (exec c env) w.

(** "Run All" in a fresh kernel. *)
Definition run_all (w : World L) := run (exec Notebook.program ∅) w.

Definition trace_of {A} (r : list event * World L * outcome A) : list event := r.1.1.
Definition world_of {A} (r : list event * World L * outcome A) : World L := r.1.2.
Definition outcome_of {A} (r : list event * World L * outcome A) : outcome A := r.2.

End Interp.

(** ** A small library to run the notebook against

    Every answer is a fresh object reference, except that the three
    functions whose result the notebook unpacks answer with a sequence of
    fresh references, and [format] answers with a str.  It leaves the
    directories, the files and the standard output alone. *)
Module Demo.

Definition fresh (n : nat) (s : N) : list val :=
  map (fun i => VObj (s + N.of_nat i)%N) (seq 0 n).

Definition answer (n : nat) (w : World N) : (exn + val) * World N :=
  (inr (VSeq (fresh n (ext w))), with_ext (ext w + N.of_nat n)%N w).

Definition lib (a : action) (w : World N) : (exn + val) * World N :=
  match a with
  | ACall (VSym q) _ _ =>
      if String.eqb q "miqsar.utils.calc_3d_pmapper" then answer 3 w
      else if String.eqb q "sklearn.model_selection.train_test_split" then answer 6 w
      else if String.eqb q "miqsar.utils.scale_descriptors" then answer 2 w
      else if String.eqb q "builtins.format" then (inr (VStr "0.50"), w)
      else (inr (VObj (ext w)), with_ext (ext w + 1)%N w)
  | _ => (inr (VObj (ext w)), with_ext (ext w + 1)%N w)
  end.

Definition fresh_world : World N := MkWorld ∅ ∅ (fun _ => None) [] 0%N.
Definition used_world : World N := MkWorld {["descriptors"]} ∅ (fun _ => None) [] 0%N.

End Demo.

(** ** Monitors: properties of traces, checked event by event *)

Record monitor (T : Type) : Type := Monitor {
  m_ok : T -> action -> Prop;      (* what an action must satisfy in a state *)
  m_upd : T -> event -> T          (* the state after an event *)
}.
Arguments Monitor {T} m_ok m_upd.
Arguments m_ok {T} m st a.
Arguments m_upd {T} m st e.

(** Every action of the trace is allowed in the state that the events
    before it lead to. *)
Fixpoint accepts {T} (M : monitor T) (st : T) (t : list event) : Prop :=
  match t with
  | [] => True
  | e :: t' => m_ok M st (ev_act e) /\ accepts M (m_upd M st e) t'
  end.

Definition after {T} (M : monitor T) (st : T) (t : list event) : T :=
  foldl (m_upd M) st t.

(** The classified events follow a fixed list. *)
Definition script {K} (cls : action -> option K) : monitor (list K) :=
  Monitor
    (fun rest a => match cls a with None => True | Some k => head rest = Some k end)
    (fun rest e => match cls (ev_act e) with None => rest | Some _ => tail rest end).

(** Every action satisfies [P]. *)
Definition pointwise (P : action -> Prop) : monitor unit :=
  Monitor (fun _ a => P a) (fun _ _ => tt).

(** Two monitors side by side. *)
Definition both {T1 T2} (M1 : monitor T1) (M2 : monitor T2) : monitor (T1 * T2) :=
  Monitor
    (fun st a => m_ok M1 st.1 a /\ m_ok M2 st.2 a)
    (fun st e => (m_upd M1 st.1 e, m_upd M2 st.2 e)).

(** The events so far, latest first. *)
Definition history : monitor (list event) :=
  Monitor (fun _ _ => True) (fun acc e => e :: acc).

(** ** Weakest preconditions of computations under a monitor *)

Section Wp.
Context {L : Type}.
Variable lib : action -> World L -> (exn + val) * World L.
Context {T : Type}.
Variable M : monitor T.

Fixpoint wp {A} (p : prog A) (w : World L) (st : T)
    (Q : T -> World L -> outcome A -> Prop) : Prop :=
  match p with
  | Ret a => Q st w (inr a)
  | Throw e => Q st w (inl e)
  | Act a k =>
      m_ok M st a /\
      match handle lib a w with
      | (inl e, w') => Q (m_upd M st (Ev a (inl e))) w' (inl e)
      | (inr v, w') => wp (k v) w' (m_upd M st (Ev a (inr v))) Q
      end
  end.

Definition then_ {A B} (f : A -> prog B) (Q : T -> World L -> outcome B -> Prop)
    : T -> World L -> outcome A -> Prop :=
  fun st w o =>
    match o with
    | inr a => wp (f a) w st Q
    | inl e => Q st w (inl e)
    end.

End Wp.

(** ** Properties of runs *)

(** *** The operations of the notebook, without the values they carry *)

Inductive op : Type :=
| OCall (f : val) (nargs : nat) (kws : list string)
| OMethod (m : string) (nargs : nat) (kws : list string)
| OGetattr (a : string)
| OGetitem
| OUnpack (n : nat).

Definition op_of (a : action) : op :=
  match a with
  | ACall f args kw => OCall f (length args) (map fst kw)
  | AMethod _ m args kw => OMethod m (length args) (map fst kw)
  | AGetattr _ x => OGetattr x
  | AGetitem _ _ => OGetitem
  | AUnpack _ n => OUnpack n
  end.

Definition ops_of (t : list event) : list op := map (fun e => op_of (ev_act e)) t.

Module Ops.

(** [f'... {len(bags)} ... {bags[0].shape[1]} ...'] and its [print] *)
Definition report_size : list op :=
  [ OCall (VSym "builtins.len") 1 []; OCall (VSym "builtins.format") 2 [];
    OGetitem; OGetattr "shape"; OGetitem; OCall (VSym "builtins.format") 2 [];
    OCall (VSym "builtins.print") 1 [] ].

Definition split_and_scale : list op :=
  [ OCall (VSym "sklearn.model_selection.train_test_split") 3 ["random_state"];
    OUnpack 6;
    OCall (VSym "miqsar.utils.scale_descriptors") 2 [];
    OUnpack 2 ].

Definition calc : list op :=
  [ OCall (VSym "miqsar.utils.calc_3d_pmapper") 1 ["nconfs"; "stereo"; "path"; "ncpu"];
    OUnpack 3 ].

Definition ndim : list op := [ OGetitem; OGetattr "shape"; OGetitem ].

Definition score : list op :=
  [ OMethod "predict" 1 []; OCall (VSym "sklearn.metrics.r2_score") 2 [];
    OCall (VSym "builtins.format") 2 []; OCall (VSym "builtins.print") 1 [] ].

Definition instance_wrapper : list op :=
  ndim ++
  [ OCall (VSym "miqsar.estimators.wrappers.InstanceWrapperMLPRegressor") 0
      ["ndim"; "init_cuda"];
    OMethod "fit" 2 ["n_epoch"; "batch_size"; "weight_decay"; "lr"] ] ++
  score.

Definition attention : list op :=
  ndim ++
  [ OCall (VSym "miqsar.estimators.attention_nets.AttentionNetRegressor") 0
      ["ndim"; "det_ndim"; "init_cuda"];
    OMethod "fit" 2 ["n_epoch"; "instance_dropout"; "batch_size"; "weight_decay"; "lr"] ] ++
  score.

Definition weights : list op :=
  [ OMethod "get_instance_weights" 1 []; OMethod "set" 0 ["rc"];
    OGetitem; OCall (VSym "builtins.len") 1 []; OCall (VSym "builtins.range") 1 [];
    OCall (VSym "builtins.list") 1 []; OGetitem;
    OMethod "barplot" 0 ["x"; "y"]; OMethod "set" 0 ["xlabel"; "ylabel"] ].

(** The operations of a complete run, cell by cell: 59 calls and reads,
    and the 6 unpackings of the tuple assignments. *)
Definition all : list op :=
  ([ OGetattr "path"; OMethod "join" 1 []; OMethod "mkdir" 1 [] ] ++ calc ++ report_size) ++
  split_and_scale ++
  instance_wrapper ++
  attention ++
  weights ++
  (calc ++ report_size ++ split_and_scale ++ instance_wrapper).

End Ops.

(** A run that ended without an exception. *)
Definition completed {A} (o : outcome A) : Prop :=
  match o with inr _ => True | inl _ => False end.

(** *** What stops a run *)

Definition sequence_of (n : nat) (v : val) : Prop :=
  match v with
  | VSeq l => length l = n
  | _ => False
  end.

(** The exception of an unpacking that does not get its items: too few or
    too many of them, or none at all. *)
Definition unpack_error (r : val) : exn :=
  match r with
  | VSeq _ => ValueError
  | _ => TypeError
  end.

(** An answer stops the run with [x]: it is the exception [x]; or it is
    what an unpacking into [n] names got and is not [n] items; or it is what
    [format] returned and is no str. *)
Definition refuses (e : event) (x : exn) : Prop :=
  match ev_res e with
  | inl x' => x = x'
  | inr r =>
      match ev_act e with
      | AUnpack _ n => ~ sequence_of n r /\ x = unpack_error r
      | ACall f _ _ => f = VSym "builtins.format" /\ (forall s, r <> VStr s) /\ x = TypeError
      | _ => False
      end
  end.

(** The run was stopped by the answer to its last action, not by the
    notebook: no name was unbound, no template ill-formed. *)
Definition stopped_by (t : list event) (x : exn) : Prop :=
  exists e, last t = Some e /\ refuses e x.

Definition stopped_end {L} : list event -> World L -> outcome Env -> Prop :=
  fun acc _ o =>
    match o with
    | inr _ => True
    | inl x => exists e, head acc = Some e /\ refuses e x
    end.

(** *** The stages of the pipeline *)

Inductive stage : Type :=
| Descriptors      (* calc_3d_pmapper on the dataset file *)
| Split            (* train_test_split *)
| Scale            (* scale_descriptors *)
| Instantiate      (* an estimator class of miqsar is called *)
| Fit              (* fit *)
| Predict          (* predict *)
| Metric           (* r2_score *)
| Report.          (* print of a metric line *)


Definition calc_3d_pmapper : string := "miqsar.utils.calc_3d_pmapper".
Definition train_test_split : string := "sklearn.model_selection.train_test_split".
Definition scale_descriptors : string := "miqsar.utils.scale_descriptors".
Definition r2_score : string := "sklearn.metrics.r2_score".

Fixpoint starts_with (l s : string) : bool :=
  match l with
  | EmptyString => true
  | String a l' =>
      match s with
      | EmptyString => false
      | String b s' => Ascii.eqb a b && starts_with l' s'
      end
  end.

(** A class of estimators is any symbol of the modules under
    [miqsar.estimators]. *)
Definition is_class (q : string) : bool := starts_with "miqsar.estimators." q.

(** The texts before the value on the three metric lines. *)
Definition metric_labels : list string :=
  [ "3D/MI/Instance-Wrapper: r2_score test = ";
    "3D/MI/Bag-AttentionNet: r2_score test = ";
    "3D/SI/Net: r2_score test = " ].

Definition is_metric_line (s : string) : bool :=
  existsb (fun l => starts_with l s) metric_labels.

Definition stage_of (a : action) : option stage :=
  match a with
  | ACall (VSym q) args _ =>
      if String.eqb q calc_3d_pmapper then Some Descriptors
      else if String.eqb q train_test_split then Some Split
      else if String.eqb q scale_descriptors then Some Scale
      else if is_class q then Some Instantiate
      else if String.eqb q r2_score then Some Metric
      else if String.eqb q "builtins.print" then
        match args with
        | [VStr s] => if is_metric_line s then Some Report else None
        | _ => None
        end
      else None
  | AMethod _ m _ _ =>
      if String.eqb m "fit" then Some Fit
      else if String.eqb m "predict" then Some Predict
      else None
  | _ => None
  end.

Definition stages_of (t : list event) : list stage :=
  omap (fun e => stage_of (ev_act e)) t.

(** Instantiate, fit, predict, score, report. *)
Definition evaluate : list stage := [Instantiate; Fit; Predict; Metric; Report].

(** The stages of a complete run: two estimators on the descriptors of
    many conformations, one on those of a single conformation. *)
Definition pipeline : list stage :=
  [Descriptors; Split; Scale] ++ evaluate ++ evaluate ++
  [Descriptors; Split; Scale] ++ evaluate.



(** The positional arguments of a call. *)
Definition positional (a : action) : list val :=
  match a with
  | ACall _ args _ | AMethod _ _ args _ => args
  | _ => []
  end.


Definition done_when_complete {L K} : list K -> World L -> outcome Env -> Prop :=
  fun rest _ o => match o with inr _ => rest = [] | inl _ => True end.

(** *** The first cell when the folder is there already *)

(** The events of the first cell up to the [os.mkdir] that raises. *)
Definition mkdir_raises : list event :=
  [ Ev (AGetattr (VSym "os") "path") (inr (VSym "os.path"));
    Ev (AMethod (VSym "os.path") "join" [VStr "descriptors"] []) (inr (VStr "descriptors"));
    Ev (AMethod (VSym "os") "mkdir" [VStr "descriptors"] []) (inl FileExistsError) ].

(** *** The flow of data from the split to the estimators *)

(** The [i]-th element of a sequence. *)
Definition item (i : nat) (v : val) : option val :=
  match v with
  | VSeq l => l !! i
  | _ => None
  end.

Definition callee (a : action) : option string :=
  match a with
  | ACall (VSym q) _ _ => Some q
  | _ => None
  end.

Definition method (a : action) : option string :=
  match a with
  | AMethod _ m _ _ => Some m
  | _ => None
  end.

Definition calls (q : string) (a : action) : bool :=
  match callee a with
  | Some q' => String.eqb q' q
  | None => false
  end.

Definition invokes (m : string) (a : action) : bool :=
  match method a with
  | Some m' => String.eqb m' m
  | None => false
  end.

(** The number of names that the answer of a call is unpacked into. *)
Definition targets (a : action) : option nat :=
  if calls calc_3d_pmapper a then Some 3%nat
  else if calls train_test_split a then Some 6%nat
  else if calls scale_descriptors a then Some 2%nat
  else None.

(** What the last descriptor calculation, split and scaling gave, once
    unpacked. *)
Record flow : Type := Flow {
  fresh : option (nat * val);  (* the answer that is to be unpacked next, and into how many names *)
  raw : option val;            (* (bags, labels, molid) *)
  parts : option val;          (* [x_train, x_test, y_train, y_test, molid_train, molid_test] *)
  scaled : option val;         (* (x_train, x_test) after scaling *)
  scalings : nat               (* how many times descriptors were scaled *)
}.

Definition no_flow : flow := Flow None None None None 0.

Definition flow_upd (st : flow) (e : event) : flow :=
  match ev_res e with
  | inl _ => st
  | inr v =>
      match ev_act e with
      | AUnpack _ n =>
          if (n =? 3)%nat then Flow None (Some v) None None (scalings st)
          else if (n =? 6)%nat then Flow None (raw st) (Some v) None (scalings st)
          else if (n =? 2)%nat then Flow None (raw st) (parts st) (Some v) (S (scalings st))
          else st
      | a =>
          Flow (n ← targets a; Some (n, v)) (raw st) (parts st) (scaled st) (scalings st)
      end
  end.



(** *** The life of an estimator *)










(** *** The evaluation of an estimator *)

Inductive progress : Type :=
| Waiting                  (* nothing to evaluate *)
| Trained                  (* an estimator was fit *)
| Predicted (p : val)      (* its predictions on the test bags *)
| Scored (s : val)         (* the r2 score of the predictions *)
| Formatted (f : string).  (* the score, formatted *)



(** [print(s)] *)
Definition prints (a : action) : option string :=
  match a with
  | ACall (VSym q) args [] =>
      if String.eqb q "builtins.print" then
        match args with
        | [VStr s] => Some s
        | _ => None
        end
      else None
  | _ => None
  end.






(** *** The operations that the notebook uses, by name *)

(** The top-level package of a qualified name. *)
Fixpoint package (q : string) : string :=
  match q with
  | EmptyString => EmptyString
  | String c q' => if Ascii.eqb c "."%char then EmptyString else String c (package q')
  end.

(** A module, function or class of one of the packages. *)
Definition from_packages (pkgs : list string) (v : val) : Prop :=
  match v with
  | VSym q => In (package q) pkgs
  | _ => False
  end.

Definition keywords (a : action) : list (string * val) :=
  match a with
  | ACall _ _ kw | AMethod _ _ _ kw => kw
  | _ => []
  end.

Fixpoint assoc (k : string) (kw : list (string * val)) : option val :=
  match kw with
  | [] => None
  | (k', v) :: kw' => if String.eqb k' k then Some v else assoc k kw'
  end.

(** The functions and classes of the libraries that are called. *)
Definition library_functions : list string :=
  [ calc_3d_pmapper; train_test_split; scale_descriptors;
    "miqsar.estimators.wrappers.InstanceWrapperMLPRegressor";
    "miqsar.estimators.attention_nets.AttentionNetRegressor";
    r2_score ].

(** The builtins that are called; [format] is what the fields of an
    f-string and of [str.format] call. *)
Definition builtin_functions : list string :=
  [ "builtins.len"; "builtins.range"; "builtins.list"; "builtins.format"; "builtins.print" ].

(** The methods that are invoked on objects. *)
Definition object_methods : list string :=
  [ "fit"; "predict"; "get_instance_weights"; "set" ].

(** The keywords that are passed. *)
Definition keyword_names : list string :=
  [ "nconfs"; "stereo"; "path"; "ncpu"; "random_state"; "ndim"; "det_ndim"; "init_cuda";
    "n_epoch"; "instance_dropout"; "batch_size"; "weight_decay"; "lr"; "rc"; "x"; "y";
    "xlabel"; "ylabel" ].

Definition listed (x : string) (l : list string) : bool := existsb (String.eqb x) l.

(** The whole vocabulary of the notebook: the functions it calls are the
    six of miqsar and sklearn and the five builtins; on modules it invokes
    [os.path.join], [os.mkdir] of [descriptors], [seaborn.barplot] and
    [seaborn.set]; on objects [fit], [predict], [get_instance_weights] and
    [set]; it reads the attribute [path] of [os] and [shape] of objects;
    it passes the eighteen keywords above.  There is no other function of
    [os], no thread, process, lock, socket or file operation among them. *)
Definition in_vocabulary (a : action) : Prop :=
  forallb (fun k => listed k keyword_names) (map fst (keywords a)) = true /\
  match a with
  | ACall f _ _ =>
      match f with
      | VSym q => listed q (library_functions ++ builtin_functions) = true
      | _ => False
      end
  | AMethod recv m args kw =>
      if String.eqb m "join" then recv = VSym "os.path"
      else if String.eqb m "mkdir" then
        recv = VSym "os" /\ args = [VStr "descriptors"] /\ kw = []
      else if String.eqb m "barplot" then recv = VSym "seaborn"
      else listed m object_methods = true
  | AGetattr v x => (v = VSym "os" /\ x = "path") \/ x = "shape"
  | AGetitem _ _ | AUnpack _ _ => True
  end.

(** *** Where the called code comes from *)

Definition model_method (a : action) : bool :=
  invokes "fit" a || invokes "predict" a || invokes "get_instance_weights" a.

(** A builtin that the notebook calls. *)
Definition builtin (f : val) : Prop :=
  match f with
  | VSym q => listed q builtin_functions = true
  | _ => False
  end.

(** Every action is in the vocabulary; every call is a call of a symbol
    imported from miqsar or sklearn, or of one of the five builtins;
    [fit], [predict] and [get_instance_weights] are invoked on objects that
    a class of miqsar returned; [ncpu] is passed to [calc_3d_pmapper], as
    the 10 of the first cell, and nowhere else. *)
Definition imported_ok (estimators : list val) (a : action) : Prop :=
  in_vocabulary a /\
  match a with
  | ACall f _ _ =>
      (from_packages ["miqsar"; "sklearn"] f \/ builtin f) /\
      assoc "ncpu" (keywords a) =
      (if calls calc_3d_pmapper a then Some (VInt 10) else None)
  | AMethod recv _ _ _ =>
      (if model_method a then In recv estimators else True) /\
      assoc "ncpu" (keywords a) = None
  | _ => True
  end.

Definition imported_upd (estimators : list val) (e : event) : list val :=
  match ev_res e, callee (ev_act e) with
  | inr v, Some q => if is_class q then v :: estimators else estimators
  | _, _ => estimators
  end.

Definition imported : monitor (list val) := Monitor imported_ok imported_upd.

(** *** The effects of the notebook *)

Definition elements (v : val) : list val :=
  match v with
  | VSeq l => l
  | _ => []
  end.

(** [v] is one of the answers, or an element of one that is a sequence. *)
Fixpoint among (v : val) (answers : list val) : Prop :=
  match answers with
  | [] => False
  | a :: rest => v = a \/ In v (elements a) \/ among v rest
  end.

(** Every action is a call of a symbol of the packages, or an operation on
    a module of the packages or on a value that an earlier action
    returned. *)
Definition library_ok (pkgs : list string) (answers : list val) (a : action) : Prop :=
  match a with
  | ACall f _ _ => from_packages pkgs f
  | AMethod recv _ _ _ | AGetattr recv _ | AGetitem recv _ | AUnpack recv _ =>
      among recv answers \/ from_packages pkgs recv
  end.

Definition library_upd (answers : list val) (e : event) : list val :=
  match ev_res e with
  | inr v => v :: answers
  | inl _ => answers
  end.

Definition library_calls (pkgs : list string) : monitor (list val) :=
  Monitor (library_ok pkgs) library_upd.

(** The cheminformatics and machine-learning libraries, and every package
    the notebook calls into. *)
Definition ml_packages : list string := ["miqsar"; "sklearn"].
Definition all_packages : list string := ["os"; "builtins"; "miqsar"; "sklearn"; "seaborn"].

(** [os.mkdir(p)]; the name of the method is looked at before the
    receiver. *)
Definition makes (a : action) : option string :=
  match a with
  | AMethod recv m args kw =>
      if String.eqb m "mkdir" then
        match recv, args, kw with
        | VSym q, [VStr p], [] => if String.eqb q "os" then Some p else None
        | _, _, _ => None
        end
      else None
  | _ => None
  end.

Definition succeeded (f : action -> option string) (e : event) : option string :=
  match ev_res e with
  | inr _ => f (ev_act e)
  | inl _ => None
  end.

(** The folders that the [os.mkdir] calls of a trace created, and the
    lines that its [print] calls wrote. *)
Definition made (t : list event) : list string := omap (succeeded makes) t.
Definition printed (t : list event) : list string := omap (succeeded prints) t.

(** A library that leaves the directories and the standard output alone. *)
Definition quiet {L} (lib : action -> World L -> (exn + val) * World L) : Prop :=
  forall a w, dirs (lib a w).2 = dirs w /\ stdout (lib a w).2 = stdout w.

Definition effects_end {L} : list val * unit * list event -> World L -> outcome Env -> Prop :=
  fun st _ _ => made (rev st.2) = [] \/ made (rev st.2) = ["descriptors"].

(** Nothing is observable but calls into the cheminformatics and
    machine-learning libraries: every action is one, and the directories
    and the standard output are as they were. *)
Definition only_library_calls {L} (lib : action -> World L -> (exn + val) * World L)
    (w : World L) : Prop :=
  accepts (library_calls ml_packages) [] (trace_of (run_all lib w)) /\
  dirs (world_of (run_all lib w)) = dirs w /\
  stdout (world_of (run_all lib w)) = stdout w.

(** *** The seed of the split *)

Definition fixes_seed (a : action) : Prop :=
  calls train_test_split a = true -> keywords a = [("random_state", VInt 42)].

(** ** Further properties of runs *)

(** The value of a keyword argument. *)
Definition keyword (k : string) (a : action) : option val := assoc k (keywords a).

(** *** The estimators that are imported and left alone *)

Definition unused_imports : list string :=
  [ "miqsar.estimators.wrappers.BagWrapperMLPRegressor";
    "miqsar.estimators.mi_nets.BagNetRegressor";
    "miqsar.estimators.mi_nets.InstanceNetRegressor" ].

Definition leaves_unused (a : action) : Prop :=
  match callee a with
  | Some q => existsb (String.eqb q) unused_imports = false
  | None => True
  end.

(** *** The settings of the estimators *)

Definition attention_class : string :=
  "miqsar.estimators.attention_nets.AttentionNetRegressor".

(** The hidden layers in [ndim], after the input width. *)
Definition hidden_layers (a : action) : option (list val) :=
  match keyword "ndim" a with
  | Some (VSeq (_ :: rest)) => Some rest
  | _ => None
  end.

(** Every estimator is instantiated with the hidden layers (256, 128, 64)
    and [init_cuda=False], and fit with the epochs, batch size, weight decay
    and learning rate of the settings cell; [det_ndim] and
    [instance_dropout] go to the attention network and to no other;
    [built] is the class instantiated last. *)
Definition settings_ok (built : option string) (a : action) : Prop :=
  match callee a with
  | Some q =>
      if is_class q then
        keyword "init_cuda" a = Some (VBool false) /\
        hidden_layers a = Some [VInt 256; VInt 128; VInt 64] /\
        keyword "det_ndim" a =
          (if String.eqb q attention_class then Some (VSeq [VInt 64]) else None)
      else True
  | None =>
      if invokes "fit" a then
        keyword "n_epoch" a = Some (VInt 500) /\
        keyword "batch_size" a = Some (VInt 128) /\
        keyword "weight_decay" a = Some (VDec 1 (-2)) /\
        keyword "lr" a = Some (VDec 1 (-3)) /\
        keyword "instance_dropout" a =
          (if bool_decide (built = Some attention_class) then Some (VDec 95 (-2)) else None)
      else True
  end.

Definition settings_upd (built : option string) (e : event) : option string :=
  match ev_res e, callee (ev_act e) with
  | inr _, Some q => if is_class q then Some q else built
  | _, _ => built
  end.

Definition settings : monitor (option string) := Monitor settings_ok settings_upd.

(** *** Where the descriptors are stored *)

Record storage : Type := Storage {
  folders : list val;    (* the paths that [os.mkdir] created in this run *)
  rounds : list val      (* the values of [nconfs] still to come *)
}.

(** Every descriptor calculation stores under a folder that the run created
    before, takes the next number of conformations, no stereo and the ten
    processes of the first cell. *)
Definition storage_ok (st : storage) (a : action) : Prop :=
  if calls calc_3d_pmapper a then
    match keyword "path" a with
    | Some p => In p (folders st)
    | None => False
    end /\
    keyword "nconfs" a = head (rounds st) /\
    keyword "stereo" a = Some (VBool false) /\
    keyword "ncpu" a = Some (VInt 10)
  else True.

Definition storage_upd (st : storage) (e : event) : storage :=
  if calls calc_3d_pmapper (ev_act e) then Storage (folders st) (tail (rounds st))
  else if invokes "mkdir" (ev_act e) then
    match ev_res e with
    | inr _ => Storage (positional (ev_act e) ++ folders st)%list (rounds st)
    | inl _ => st
    end
  else st.

Definition storing : monitor storage := Monitor storage_ok storage_upd.

Definition many_then_one : storage := Storage [] [VInt 100; VInt 1].

(** *** The answers that the notebook unpacks *)

(** An answer on its way into names. *)
Inductive transit : Type :=
| Nothing                          (* no answer is on its way *)
| Returned (n : nat) (v : val)     (* [v] was returned and goes into [n] names *)
| Iterated (n : nat) (r : val).    (* iterating it gave [r] *)

(** What one of the three functions returned is unpacked by the very next
    action, into as many names as the assignment has, and nothing else is
    unpacked; the action after that finds that the unpacking gave as many
    items as there are names. *)
Definition unpacking_ok (st : transit) (a : action) : Prop :=
  match st with
  | Returned n v => a = AUnpack v n
  | Iterated n r => sequence_of n r /\ forall v m, a <> AUnpack v m
  | Nothing => forall v m, a <> AUnpack v m
  end.

Definition unpacking_upd (st : transit) (e : event) : transit :=
  match ev_res e with
  | inl _ => Nothing
  | inr v =>
      match ev_act e with
      | AUnpack _ n => Iterated n v
      | a =>
          match targets a with
          | Some n => Returned n v
          | None => Nothing
          end
      end
  end.

Definition unpacking : monitor transit := Monitor unpacking_ok unpacking_upd.

(** A run whose last action is an unpacking that was answered went on to
    the end when the items are as many as the names, and ended there with
    [ValueError] when they are too few or too many, and with [TypeError]
    when the answer is no sequence of items; no run ends on an answer
    that is still to be unpacked. *)
Definition unpacking_end (st : transit) (o : outcome Env) : Prop :=
  match st with
  | Returned _ _ => False
  | Iterated n r =>
      match o with
      | inr _ => sequence_of n r
      | inl x => ~ sequence_of n r /\ x = unpack_error r
      end
  | Nothing => True
  end.

(** A value of Python's own types is unpacked into its own items. *)
Definition unpacks_own (e : event) : Prop :=
  match ev_act e with
  | AUnpack v _ => forall r, items v = Some r -> ev_res e = r
  | _ => True
  end.

Definition plain_end {L} : unit * option string * storage * transit ->
    World L -> outcome Env -> Prop :=
  fun st _ o =>
    unpacking_end st.2 o /\
    match o with
    | inr _ => rounds st.1.2 = []
    | inl _ => True
    end.

(** *** What the cells read from the data *)

(** What the run last read, and from what. *)
Record reads : Type := Reads {
  flowing : flow;
  got : option (val * val * val);        (* the last [v[i]]: v, i and the answer *)
  got_before : option (val * val * val); (* the [v[i]] before it *)
  shape_of : option (val * val);         (* the last [v.shape]: v and the answer *)
  measured : option (val * val);         (* the last [len(v)] *)
  ranged : option (val * val);           (* the last [range(v)] *)
  enumerated : option (val * val);       (* the last [list(v)] *)
  texts : list (val * val);              (* [format(v, '')] since the last [print], latest first *)
  attention : option val;                (* the attention network *)
  weights : option val;                  (* its instance weights *)
  plotted : option val                   (* the bar plot *)
}.

Definition nothing_read : reads :=
  Reads no_flow None None None None None None [] None None None.

(** [format(v, '')], as the fields of an f-string do. *)
Definition formats_plain (a : action) : option val :=
  match a with
  | ACall (VSym q) args [] =>
      if String.eqb q "builtins.format" then
        match args with
        | [v; VStr sp] => if String.eqb sp "" then Some v else None
        | _ => None
        end
      else None
  | _ => None
  end.

(** The argument of a call of a builtin with one argument. *)
Definition builtin_of (f : string) (a : action) : option val :=
  match a with
  | ACall (VSym q) args [] =>
      if String.eqb q ("builtins." ++ f) then
        match args with
        | [v] => Some v
        | _ => None
        end
      else None
  | _ => None
  end.

Definition reads_upd (st : reads) (e : event) : reads :=
  match ev_res e with
  | inl _ => st
  | inr r =>
      let d := flow_upd (flowing st) e in
      let st := Reads d (got st) (got_before st) (shape_of st) (measured st) (ranged st)
                  (enumerated st) (texts st) (attention st) (weights st) (plotted st) in
      match ev_act e with
      | AGetitem v i =>
          Reads d (Some (v, i, r)) (got st) (shape_of st) (measured st) (ranged st)
            (enumerated st) (texts st) (attention st) (weights st) (plotted st)
      | AGetattr v x =>
          if String.eqb x "shape" then
            Reads d (got st) (got_before st) (Some (v, r)) (measured st) (ranged st)
              (enumerated st) (texts st) (attention st) (weights st) (plotted st)
          else st
      | AMethod _ m _ _ =>
          if String.eqb m "get_instance_weights" then
            Reads d (got st) (got_before st) (shape_of st) (measured st) (ranged st)
              (enumerated st) (texts st) (attention st) (Some r) (plotted st)
          else if String.eqb m "barplot" then
            Reads d (got st) (got_before st) (shape_of st) (measured st) (ranged st)
              (enumerated st) (texts st) (attention st) (weights st) (Some r)
          else st
      | ACall _ _ _ =>
          if calls attention_class (ev_act e) then
            Reads d (got st) (got_before st) (shape_of st) (measured st) (ranged st)
              (enumerated st) (texts st) (Some r) (weights st) (plotted st)
          else
            match builtin_of "len" (ev_act e), builtin_of "range" (ev_act e),
                  builtin_of "list" (ev_act e), formats_plain (ev_act e), prints (ev_act e) with
            | Some v, _, _, _, _ =>
                Reads d (got st) (got_before st) (shape_of st) (Some (v, r)) (ranged st)
                  (enumerated st) (texts st) (attention st) (weights st) (plotted st)
            | _, Some v, _, _, _ =>
                Reads d (got st) (got_before st) (shape_of st) (measured st) (Some (v, r))
                  (enumerated st) (texts st) (attention st) (weights st) (plotted st)
            | _, _, Some v, _, _ =>
                Reads d (got st) (got_before st) (shape_of st) (measured st) (ranged st)
                  (Some (v, r)) (texts st) (attention st) (weights st) (plotted st)
            | _, _, _, Some v, _ =>
                Reads d (got st) (got_before st) (shape_of st) (measured st) (ranged st)
                  (enumerated st) ((v, r) :: texts st) (attention st) (weights st) (plotted st)
            | _, _, _, _, Some _ =>
                Reads d (got st) (got_before st) (shape_of st) (measured st) (ranged st)
                  (enumerated st) [] (attention st) (weights st) (plotted st)
            | _, _, _, _, _ => st
            end
      | AUnpack _ _ => st
      end
  end.

(** [v[0].shape[i]] was read just before, and gave [d]. *)
Definition dimension_read (st : reads) (v i d : val) : Prop :=
  exists b sh,
    got_before st = Some (v, VInt 0, b) /\
    shape_of st = Some (b, sh) /\
    got st = Some (sh, i, d).

(** The input width of an estimator is [x_train[0].shape[-1]] of the scaled
    train bags. *)
Definition width_ok (st : reads) (a : action) : Prop :=
  match callee a with
  | Some q =>
      if is_class q then
        exists x d,
          (scaled (flowing st) ≫= item 0) = Some x /\
          dimension_read st x (VInt (-1)) d /\
          (keyword "ndim" a ≫= item 0) = Some d
      else True
  | None => True
  end.

Definition width : monitor reads := Monitor width_ok reads_upd.

(** A line that is no metric line tells the number of bags, [len(bags)],
    and the number of descriptors, [bags[0].shape[1]], of the descriptors
    calculated last. *)
Definition size_line_ok (st : reads) (a : action) : Prop :=
  match prints a with
  | Some s =>
      if is_metric_line s then True
      else
        exists bags n d t1 t2,
          (raw (flowing st) ≫= item 0) = Some bags /\
          measured st = Some (bags, n) /\
          dimension_read st bags (VInt 1) d /\
          texts st = [(d, VStr t2); (n, VStr t1)] /\
          s = "There are " ++ t1 ++ " molecules encoded with " ++ t2 ++ " pmapper descriptors"
  | None => True
  end.

Definition size_line : monitor reads := Monitor size_line_ok reads_upd.

(** The instance weights are those of the attention network on the scaled
    test bags; the bar plot shows, for the bag of index 2, one bar for each
    weight; the labels are set on that plot. *)
Definition plot_ok (st : reads) (a : action) : Prop :=
  match a with
  | AMethod recv m args kw =>
      if String.eqb m "get_instance_weights" then
        Some recv = attention st /\
        Some args = (x ← scaled (flowing st) ≫= item 1; Some [x])
      else if String.eqb m "barplot" then
        exists iw ws n r xs ys,
          weights st = Some iw /\
          got_before st = Some (iw, VInt 2, ws) /\
          measured st = Some (ws, n) /\
          ranged st = Some (n, r) /\
          enumerated st = Some (r, xs) /\
          got st = Some (iw, VInt 2, ys) /\
          args = [] /\ kw = [("x", xs); ("y", ys)]
      else if String.eqb m "set" then
        match assoc "xlabel" kw with
        | Some _ =>
            Some recv = plotted st /\
            kw = [("xlabel", VStr "Conformation index"); ("ylabel", VStr "Attention weight")]
        | None => True
        end
      else True
  | _ => True
  end.

Definition plotting : monitor reads := Monitor plot_ok reads_upd.

(** *** What the names are bound to when the run is over *)

(** The answers of the actions that satisfy [p], in order. *)
Definition answers (p : action -> bool) (t : list event) : list val :=
  omap (fun e =>
          match ev_res e with
          | inr v => if p (ev_act e) then Some v else None
          | inl _ => None
          end) t.





(** * Proofs *)

Arguments lit v env /.
Arguments name x env /.
Arguments tuple es env /.
Arguments dict kw env /.
Arguments attr e a env /.
Arguments index e i env /.
Arguments call f args kw env /.
Arguments mcall e m args kw env /.
Arguments fstring ps env /.
Arguments str_format template args env /.
Arguments assign x e env /.
Arguments assign_tuple xs e env /.
Arguments do e env /.
Arguments import m env /.
Arguments import_as m x env /.
Arguments from_import m xs env /.
Arguments format_value v spec /.
Arguments perform a /.

(** ** Monitors *)

Lemma script_spec {K} (cls : action -> option K) (l : list K) (t : list event) :
  accepts (script cls) l t ->
  l = (omap (fun e => cls (ev_act e)) t ++ after (script cls) l t)%list.
Proof.
  revert l. induction t as [| e t IH]; intros l; cbn; [done |].
  intros [Hok Hrest]. destruct (cls (ev_act e)) as [k |]; cbn.
  - destruct l as [| k' l']; [done |]. cbn in Hok. injection Hok as ->.
    f_equal. by apply IH.
  - by apply IH.
Qed.


Lemma omap_total {A B} (f : A -> B) (l : list A) :
  omap (fun x => Some (f x)) l = map f l.
Proof. induction l as [| x l IH]; cbn; [done | by rewrite IH]. Qed.

Lemma accepts_pointwise (P : action -> Prop) (t : list event) :
  accepts (pointwise P) tt t <-> Forall (fun e => P (ev_act e)) t.
Proof.
  induction t as [| e t IH]; cbn.
  - split; [by constructor | done].
  - rewrite Forall_cons. tauto.
Qed.

Lemma accepts_both {T1 T2} (M1 : monitor T1) (M2 : monitor T2) st t :
  accepts (both M1 M2) st t <-> accepts M1 st.1 t /\ accepts M2 st.2 t.
Proof.
  revert st. induction t as [| e t IH]; intros st; cbn; [tauto |].
  rewrite IH. cbn. tauto.
Qed.

Lemma after_both {T1 T2} (M1 : monitor T1) (M2 : monitor T2) st t :
  after (both M1 M2) st t = (after M1 st.1 t, after M2 st.2 t).
Proof.
  unfold after. revert st. induction t as [| e t IH]; intros st; cbn; [by destruct st |].
  by rewrite IH.
Qed.

Lemma after_history (acc t : list event) :
  after history acc t = (rev t ++ acc)%list.
Proof.
  unfold after. revert acc. induction t as [| e t IH]; intros acc; cbn; [done |].
  rewrite IH. by rewrite <- (app_assoc (A:=event)).
Qed.

(** ** The logic of [wp] *)

Section Logic.
Context {L : Type}.
Variable lib : action -> World L -> (exn + val) * World L.
Context {T : Type}.
Variable M : monitor T.

Lemma wp_run {A} (p : prog A) w st Q :
  wp lib M p w st Q ->
  accepts M st (trace_of (run lib p w)) /\
  Q (after M st (trace_of (run lib p w))) (world_of (run lib p w)) (outcome_of (run lib p w)).
Proof.
  revert w st. induction p as [a | e | a k IH]; intros w st; cbn; [done | done |].
  intros [Hok H]. destruct (handle lib a w) as [[e | v] w']; cbn; [done |].
  apply IH in H. destruct (run lib (k v) w') as [[t w''] o]. cbn in *. tauto.
Qed.

Lemma wp_bind {A B} (p : prog A) (f : A -> prog B) w st Q :
  wp lib M p w st (then_ lib M f Q) -> wp lib M (bind p f) w st Q.
Proof.
  revert w st. induction p as [a | e | a k IH]; intros w st; cbn; [done | done |].
  intros [Hok H]. split; [done |].
  destruct (handle lib a w) as [[e | v] w']; cbn; [done |]. by apply IH.
Qed.

Lemma wp_exec_cons (s : stmt) ss env w st Q :
  wp lib M (s env) w st (then_ lib M (exec ss) Q) -> wp lib M (exec (s :: ss) env) w st Q.
Proof. intros H. cbn [exec]. by apply wp_bind. Qed.

Lemma wp_exec_nil env w st (Q : T -> World L -> outcome Env -> Prop) :
  Q st w (inr env) -> wp lib M (exec [] env) w st Q.
Proof. done. Qed.

Lemma wp_ret {A} (a : A) w st Q : Q st w (inr a) -> wp lib M (Ret a) w st Q.
Proof. done. Qed.

Lemma wp_throw {A} e w st (Q : T -> World L -> outcome A -> Prop) :
  Q st w (inl e) -> wp lib M (Throw e) w st Q.
Proof. done. Qed.

Lemma then_ret {A B} (f : A -> prog B) Q st w a :
  wp lib M (f a) w st Q -> then_ lib M f Q st w (inr a).
Proof. done. Qed.

Lemma then_raise {A B} (f : A -> prog B) Q st w e :
  Q st w (inl e) -> then_ lib M f Q st w (inl e).
Proof. done. Qed.

Lemma handle_mkdir p w :
  handle lib (AMethod (VSym "os") "mkdir" [VStr p] []) w =
  if bool_decide (p ∈ dirs w ∪ files w) then (inl FileExistsError, w)
  else
    match refused w p with
    | Some e => (inl e, w)
    | None => (inr VNone, add_dir p w)
    end.
Proof.
  unfold handle. cbn. destruct (bool_decide _); [done |]. by destruct (refused w p).
Qed.

(** Whatever the answer to an action and the world after it. *)
Lemma wp_act_any {A} a (k : val -> prog A) w st Q :
  m_ok M st a ->
  (forall e w', Q (m_upd M st (Ev a (inl e))) w' (inl e)) ->
  (forall v w', wp lib M (k v) w' (m_upd M st (Ev a (inr v))) Q) ->
  wp lib M (Act a k) w st Q.
Proof.
  intros Hok He Hv. split; [done |].
  destruct (handle lib a w) as [[e | v] w']; [apply He | apply Hv].
Qed.

Lemma wp_act_module_attr {A} q x (k : val -> prog A) w st Q :
  let a := AGetattr (VSym q) x in
  m_ok M st a ->
  wp lib M (k (VSym (q ++ "." ++ x))) w (m_upd M st (Ev a (inr (VSym (q ++ "." ++ x))))) Q ->
  wp lib M (Act a k) w st Q.
Proof. done. Qed.

Lemma wp_act_join {A} p (k : val -> prog A) w st Q :
  let a := AMethod (VSym "os.path") "join" [VStr p] [] in
  m_ok M st a ->
  wp lib M (k (VStr p)) w (m_upd M st (Ev a (inr (VStr p)))) Q ->
  wp lib M (Act a k) w st Q.
Proof. done. Qed.

End Logic.

(** ** Symbolic execution of the cells *)

Ltac eval_lookup :=
  match goal with
  | |- context [@lookup string val (gmap string val) ?i ?k ?m] =>
      let r := eval vm_compute in (@lookup string val (gmap string val) i k m) in
      let H := fresh in
      assert (H : @lookup string val (gmap string val) i k m = r) by (vm_compute; reflexivity);
      rewrite H; clear H
  end.

Ltac eval_decide :=
  match goal with
  | |- context [bool_decide (?x ∈ builtin_names)] =>
      let r := eval vm_compute in (bool_decide (x ∈ builtin_names)) in
      let H := fresh in
      assert (H : bool_decide (x ∈ builtin_names) = r) by (vm_compute; reflexivity);
      rewrite H; clear H
  end.

Ltac eval_template :=
  match goal with
  | |- context [scan_template ?s ?a ?b] =>
      let r := eval vm_compute in (scan_template s a b) in
      change (scan_template s a b) with r
  end.

(** A case analysis that the computation itself makes on an answer. *)
Ltac split_val :=
  lazymatch goal with
  | |- wp _ _ ?p _ _ _ =>
      match p with
      | context [match ?v with VNone => _ | _ => _ end] => is_var v; destruct v
      | context [match ?l with [] => _ | _ :: _ => _ end] => is_var l; destruct l
      end
  end.

Ltac reduce :=
  cbn [bind lit name tuple dict attr index call mcall fstring fstring_go str_format
       render format_value perform eval_list eval_kw assign assign_tuple bind_names do
       import import_as from_import foldl String.append].

(** The monitor's state, evaluated. *)
Ltac norm_state :=
  lazymatch goal with
  | |- wp _ _ _ _ ?st _ =>
      let st' := eval vm_compute in st in change st with st'
  | |- _ => idtac
  end.

Ltac do_action ob :=
  lazymatch goal with
  | |- wp _ _ (Act ?a _) _ _ _ =>
      lazymatch a with
      | AGetattr (VSym _) _ => apply wp_act_module_attr; [ob | ]
      | AMethod (VSym _) _ [VStr _] [] =>
          first [ apply wp_act_join; [ob | ]
                | apply wp_act_any; [ob | intros ? ? | intros ? ? ] ]
      | _ => apply wp_act_any; [ob | intros ? ? | intros ? ? ]
      end
  end.

(** Membership in an explicit list, or a disjunction of equations. *)
Ltac in_list := solve [ reflexivity | left; in_list | right; in_list ].

(** The same through conjunctions. *)
Ltac holds :=
  solve [ reflexivity | exact I | split; holds | left; holds | right; holds ].

(** One step of symbolic execution; [ob] discharges the monitor's
    obligation at an action. *)
Ltac step ob :=
  lazymatch goal with
  | K := then_ _ _ _ _ |- ?K' _ _ (inr _) => unify K K'; subst K; apply then_ret
  | K := then_ _ _ _ _ |- ?K' _ _ (inl _) => unify K K'; subst K; apply then_raise
  | |- wp _ _ (exec (_ :: _) ?env) _ _ _ =>
      apply wp_exec_cons;
      let K := fresh "K" in
      lazymatch goal with |- wp _ _ _ _ _ ?k => set (K := k) end;
      let E := fresh "E" in
      set (E := env)
  | |- wp _ _ (exec [] _) _ _ _ => apply wp_exec_nil
  | |- wp _ _ (Ret _) _ _ _ => apply wp_ret
  | |- wp _ _ (Throw _) _ _ _ => apply wp_throw
  | |- wp _ _ (Act _ _) _ _ _ => do_action ob; norm_state
  | |- wp _ _ _ _ _ _ =>
      first [ eval_lookup | eval_decide | eval_template | split_val | progress reduce ]
  end.

Ltac unfold_notebook :=
  cbv [Notebook.program Notebook.cells concat
       Notebook.cell_descriptors Notebook.cell_split Notebook.cell_settings
       Notebook.cell_instance_wrapper Notebook.cell_attention Notebook.cell_weights
       Notebook.cell_single Notebook.ndim_expr];
  cbn [app].

(** Every run is accepted by [M] from [st], and ends in a monitor state,
    world and outcome that satisfy [Q], once [wp] is established. *)
Lemma run_all_wp {L T} (lib : action -> World L -> (exn + val) * World L) (M : monitor T)
    (st : T) (Q : T -> World L -> outcome Env -> Prop) (w : World L) :
  wp lib M (exec Notebook.program ∅) w st Q ->
  accepts M st (trace_of (run_all lib w)) /\
  Q (after M st (trace_of (run_all lib w))) (world_of (run_all lib w))
    (outcome_of (run_all lib w)).
Proof. apply wp_run. Qed.

(** ** The shape of every run *)

Lemma notebook_follows_ops {L} (lib : action -> World L -> (exn + val) * World L) (w : World L) :
  wp lib (script (fun a => Some (op_of a))) (exec Notebook.program ∅) w Ops.all
    done_when_complete.
Proof.
  unfold_notebook. norm_state.
  repeat (step ltac:(vm_compute; reflexivity)).
  all: exact I || reflexivity.
Qed.

(** C7. The notebook is straight-line: whatever the libraries answer, the
    operations of a run are an initial part of one fixed list of 65
    operations, and all of it when no exception is raised; so every run
    ends after at most 65 actions. *)
Theorem notebook_is_straight_line {L} (lib : action -> World L -> (exn + val) * World L)
    (w : World L) :
  ops_of (trace_of (run_all lib w)) `prefix_of` Ops.all /\
  (length (trace_of (run_all lib w)) <= 65)%nat /\
  match outcome_of (run_all lib w) with
  | inr _ => ops_of (trace_of (run_all lib w)) = Ops.all
  | inl _ => True
  end.
Proof.
  destruct (run_all_wp lib _ _ _ w (notebook_follows_ops lib w)) as [Hacc Hend].
  generalize dependent (run_all lib w). intros r Hacc Hend.
  apply script_spec in Hacc. rewrite omap_total in Hacc.
  fold (ops_of (trace_of r)) in Hacc.
  split; [by eexists |]. split.
  - apply (f_equal length) in Hacc. rewrite length_app in Hacc.
    unfold ops_of in Hacc. rewrite length_map in Hacc.
    change (length Ops.all) with 65%nat in Hacc. lia.
  - unfold done_when_complete in Hend.
    destruct (outcome_of r); [done |].
    rewrite Hend in Hacc. by rewrite app_nil_r in Hacc.
Qed.


(** ** Data flow and the life of the estimators *)


(** ** What stops a run *)

Lemma head_rev {A} (l : list A) : head (rev l) = last l.
Proof.
  induction l as [| x l IH] using rev_ind; [done |].
  rewrite rev_unit. cbn. by rewrite last_snoc.
Qed.

Ltac stopped :=
  first
    [ exact I
    | eexists; split; [reflexivity |]; cbn;
      first [ reflexivity
            | split; [ first [ cbn; intros ?; discriminate | intros [] ] | reflexivity ]
            | split; [ reflexivity | split; [ intros ? ?; discriminate | reflexivity ] ] ] ].

Lemma notebook_goes_on {L} (lib : action -> World L -> (exn + val) * World L) (w : World L) :
  wp lib history (exec Notebook.program ∅) w [] stopped_end.
Proof.
  unfold_notebook. norm_state.
  repeat (step ltac:(exact I)).
  all: unfold stopped_end; stopped.
Qed.

(** A run that raises was stopped by the answer to its last action. *)
Lemma run_goes_on {L} (lib : action -> World L -> (exn + val) * World L) (w : World L) :
  match outcome_of (run_all lib w) with
  | inr _ => True
  | inl x => stopped_by (trace_of (run_all lib w)) x
  end.
Proof.
  destruct (run_all_wp lib _ _ _ w (notebook_goes_on lib w)) as [_ Hend].
  generalize dependent (run_all lib w). intros r Hend.
  unfold stopped_end in Hend. rewrite after_history, app_nil_r, head_rev in Hend.
  by destruct (outcome_of r).
Qed.

(** ** The order of the stages *)




(** ** Where the called code comes from *)

Lemma notebook_imports {L} (lib : action -> World L -> (exn + val) * World L) (w : World L) :
  wp lib imported (exec Notebook.program ∅) w [] (fun _ _ _ => True).
Proof.
  unfold_notebook. norm_state.
  repeat (step ltac:(vm_compute; holds)).
  all: exact I.
Qed.

(** C2. The notebook calls no function or class of its own, and what it
    calls is a closed list: every call is a call of one of six symbols
    imported from miqsar and sklearn (the descriptor calculation, the
    split, the scaling, the two estimator classes and the metric) or of
    one of five builtins; [fit], [predict] and [get_instance_weights] are
    invoked on objects that the estimator classes of miqsar returned;
    besides these there are [os.path.join], [os.mkdir] and two functions
    of seaborn.  No operation of the list starts, schedules or synchronises
    anything, stores or transmits anything; and [ncpu], the one argument
    that concerns parallel execution, is handed to [calc_3d_pmapper] as the
    10 of the first cell and to nothing else. *)
Theorem every_operation_is_imported {L} (lib : action -> World L -> (exn + val) * World L)
    (w : World L) :
  accepts imported [] (trace_of (run_all lib w)) /\
  Forall (fun q => In (package q) ["miqsar"; "sklearn"]) library_functions /\
  Forall (fun q => package q = "builtins") builtin_functions.
Proof.
  split; [| split].
  - exact (proj1 (run_all_wp lib _ _ _ w (notebook_imports lib w))).
  - repeat constructor; vm_compute; holds.
  - by repeat constructor.
Qed.

(** ** The effects of the notebook *)

Lemma notebook_effects {L} (lib : action -> World L -> (exn + val) * World L) (w : World L) :
  wp lib (both (both (library_calls all_packages) (pointwise in_vocabulary)) history)
    (exec Notebook.program ∅) w ([], tt, []) effects_end.
Proof.
  unfold_notebook. norm_state.
  repeat (step ltac:(split; [split; vm_compute; holds | exact I])).
  all: unfold effects_end; vm_compute; holds.
Qed.

(** *** What the interpretation does to the directories and the output *)

Lemma makes_runtime {L} (a : action) (p : string) (w : World L) :
  makes a = Some p -> is_Some (runtime a w).
Proof.
  destruct a as [f args kw | recv m args kw | v x | v i | v n]; try done. cbn.
  destruct (String.eqb_spec m "mkdir"); [subst | done].
  destruct recv as [| | | | | | | q |]; try done.
  destruct args as [| [| | | | s | | | |] [|]]; try done.
  destruct kw; [| done].
  destruct (String.eqb_spec q "os"); [subst | done].
  intros _. cbn. destruct (bool_decide _); [by eexists |].
  destruct (refused w s); by eexists.
Qed.

Lemma prints_runtime {L} (a : action) (s : string) (w : World L) :
  prints a = Some s -> is_Some (runtime a w).
Proof.
  destruct a as [f args kw | recv m args kw | v x | v i | v n]; try done. cbn.
  destruct f as [| | | | | | | q |]; try done.
  destruct kw; [| done].
  destruct (String.eqb q "builtins.print"); [| done].
  destruct args as [| [| | | | s' | | | |] [|]]; try done.
Qed.

(** An action adds to the directories the folder it made and to the
    standard output the line it printed, when the library leaves them
    alone. *)
Ltac own_done :=
  cbn; rewrite ?app_nil_r, ?(right_id_L ∅ (∪)), ?(left_id_L ∅ (∪)); done.

Lemma handle_own {L} (lib : action -> World L -> (exn + val) * World L) (a : action)
    (w : World L) :
  quiet lib ->
  dirs (handle lib a w).2 = list_to_set (made [Ev a (handle lib a w).1]) ∪ dirs w /\
  stdout (handle lib a w).2 = (stdout w ++ printed [Ev a (handle lib a w).1])%list.
Proof.
  intros Hq. unfold handle. destruct (runtime a w) as [[r w'] |] eqn:Hr.
  - destruct a as [f args kw | recv m args kw | v x | v i | v n]; cbn in Hr.
    + destruct f as [| | | | | | | q |]; try done. destruct kw; [| done].
      destruct (String.eqb_spec q "builtins.print"); [subst | done].
      destruct args as [| [| | | | s | | | |] [|]]; try done.
      cbn in Hr. simplify_eq. own_done.
    + destruct kw; [| done].
      destruct (String.eqb_spec m "join").
      * destruct recv as [| | | | | | | q |]; try done.
        destruct (String.eqb_spec q "os.path"); [subst | done].
        destruct args as [| [| | | | s | | | |] [|]]; try done.
        cbn in Hr. simplify_eq. own_done.
      * destruct (String.eqb_spec m "mkdir"); [subst | done].
        destruct recv as [| | | | | | | q |]; try done.
        destruct (String.eqb_spec q "os"); [subst | done].
        destruct args as [| [| | | | s | | | |] [|]]; try done.
        cbn in Hr. destruct (bool_decide _); [simplify_eq; own_done |].
        destruct (refused w s); simplify_eq; own_done.
    + destruct v as [| | | | | | | q |]; try done. cbn in Hr. simplify_eq. own_done.
    + done.
    + destruct v; cbn in Hr; simplify_eq; own_done.
  - destruct (Hq a w) as [Hd Ho]. rewrite Hd, Ho.
    destruct (lib a w) as [[e | v] w']; [own_done |].
    unfold made, printed. cbn.
    destruct (makes a) as [p |] eqn:Hm;
      [apply (makes_runtime _ _ w) in Hm; rewrite Hr in Hm; by destruct Hm |].
    destruct (prints a) as [s |] eqn:Hp;
      [apply (prints_runtime _ _ w) in Hp; rewrite Hr in Hp; by destruct Hp |].
    own_done.
Qed.

Lemma run_own {L A} (lib : action -> World L -> (exn + val) * World L) (p : prog A)
    (w : World L) :
  quiet lib ->
  dirs (world_of (run lib p w)) = list_to_set (made (trace_of (run lib p w))) ∪ dirs w /\
  stdout (world_of (run lib p w)) = (stdout w ++ printed (trace_of (run lib p w)))%list.
Proof.
  intros Hq. revert w. induction p as [a | e | a k IH]; intros w; cbn; [own_done | own_done |].
  pose proof (handle_own lib a w Hq) as [Hd Ho].
  destruct (handle lib a w) as [[e | v] w']; cbn in Hd, Ho |- *; [done |].
  specialize (IH v w'). destruct (run lib (k v) w') as [[t w''] o]. cbn in IH |- *.
  destruct IH as [IHd IHo]. rewrite IHd, IHo, Hd, Ho.
  split.
  - destruct (makes a) as [p |]; cbn; rewrite ?(right_id_L ∅ (∪)), ?(left_id_L ∅ (∪)); [| done].
    rewrite !(assoc_L (∪)). f_equal. apply (comm_L (∪)).
  - destruct (prints a) as [s |]; cbn; rewrite ?app_nil_r; [| done].
    by rewrite <- (app_assoc (A:=string)).
Qed.

Lemma demo_is_quiet : quiet Demo.lib.
Proof.
  intros a w. unfold Demo.lib, Demo.answer. by repeat case_match.
Qed.

(** C3, as the specification has it, fails: in a world with no directory
    and nothing printed, against a library that answers every call, the
    run leaves the directory [descriptors] behind and five lines on the
    standard output, and its third action is [os.mkdir], which is no call
    into miqsar or sklearn. *)
Lemma notebook_makes_a_folder_and_prints :
  ("descriptors" ∉ dirs Demo.fresh_world) /\
  ("descriptors" ∈ dirs (world_of (run_all Demo.lib Demo.fresh_world))) /\
  length (stdout (world_of (run_all Demo.lib Demo.fresh_world))) = 5%nat /\
  ~ only_library_calls Demo.lib Demo.fresh_world.
Proof.
  split; [apply (bool_decide_unpack _); by vm_compute |].
  split; [apply (bool_decide_unpack _); by vm_compute |].
  split; [by vm_compute |].
  intros (_ & _ & Hout). vm_compute in Hout. discriminate.
Qed.

(** C3, amended. What a run does outside the notebook is a closed list.
    Every action is a call of a symbol of miqsar, sklearn, seaborn, [os] or
    the builtins, or an operation on one of their modules or on a value
    that an earlier action returned; and it is in the vocabulary of the
    notebook, which has of [os] nothing but [os.path.join] and
    [os.mkdir('descriptors')], and of the builtins nothing but [len],
    [range], [list], [format] and [print].  So the notebook itself acts on
    the world in two ways only: it creates the folder [descriptors], at
    most once in a run, and it prints lines.  When the libraries leave the
    directories and the standard output alone, a run adds to the
    directories the folder it made, if it got that far, and to the
    standard output the lines of its [print] calls, and nothing else. *)
Theorem effects_are_a_folder_lines_and_library_calls {L}
    (lib : action -> World L -> (exn + val) * World L) (w : World L) :
  accepts (library_calls all_packages) [] (trace_of (run_all lib w)) /\
  Forall (fun e => in_vocabulary (ev_act e)) (trace_of (run_all lib w)) /\
  (made (trace_of (run_all lib w)) = [] \/
   made (trace_of (run_all lib w)) = ["descriptors"]) /\
  (quiet lib ->
   dirs (world_of (run_all lib w)) =
     list_to_set (made (trace_of (run_all lib w))) ∪ dirs w /\
   stdout (world_of (run_all lib w)) =
     (stdout w ++ printed (trace_of (run_all lib w)))%list).
Proof.
  destruct (run_all_wp lib _ _ _ w (notebook_effects lib w)) as [Hacc Hend].
  pose proof (run_own lib (exec Notebook.program ∅) w) as Hown.
  fold (run_all lib w) in Hown.
  generalize dependent (run_all lib w). intros r Hacc Hend Hown.
  apply accepts_both in Hacc. destruct Hacc as [Hacc _].
  apply accepts_both in Hacc. destruct Hacc as [Hlib Hvoc].
  cbn [fst snd] in Hlib, Hvoc. apply accepts_pointwise in Hvoc.
  rewrite after_both in Hend. unfold effects_end in Hend. cbn [fst snd] in Hend.
  rewrite after_history in Hend. rewrite app_nil_r, rev_involutive in Hend.
  done.
Qed.

Lemma effects_are_a_folder_lines_and_library_calls_witness :
  quiet Demo.lib /\
  dirs (world_of (run_all Demo.lib Demo.fresh_world)) = {["descriptors"]} /\
  length (stdout (world_of (run_all Demo.lib Demo.fresh_world))) = 5%nat.
Proof.
  split; [exact demo_is_quiet |].
  destruct (proj2 (proj2 (proj2
    (effects_are_a_folder_lines_and_library_calls Demo.lib Demo.fresh_world)))
    demo_is_quiet) as [Hd Ho].
  rewrite Hd, Ho. split; [| by vm_compute].
  assert (Hm : made (trace_of (run_all Demo.lib Demo.fresh_world)) = ["descriptors"])
    by (by vm_compute).
  rewrite Hm. cbn. by rewrite !(right_id_L ∅ (∪)).
Defined.

(** ** What the cells read from the data *)

Ltac reads_ob :=
  vm_compute; repeat first [ split | eexists ]; first [ reflexivity | exact I ].

Lemma notebook_reads {L} (lib : action -> World L -> (exn + val) * World L) (w : World L) :
  wp lib (both (both width size_line) plotting)
    (exec Notebook.program ∅) w (nothing_read, nothing_read, nothing_read)
    (fun _ _ _ => True).
Proof.
  unfold_notebook. norm_state.
  repeat (step ltac:(reads_ob)).
  all: exact I.
Qed.

Lemma reads_parts {L} (lib : action -> World L -> (exn + val) * World L) (w : World L) :
  accepts width nothing_read (trace_of (run_all lib w)) /\
  accepts size_line nothing_read (trace_of (run_all lib w)) /\
  accepts plotting nothing_read (trace_of (run_all lib w)).
Proof.
  destruct (run_all_wp lib _ _ _ w (notebook_reads lib w)) as [Hacc _].
  generalize dependent (run_all lib w). intros r Hacc.
  apply accepts_both in Hacc. destruct Hacc as [Hacc Hplot].
  apply accepts_both in Hacc. destruct Hacc as [Hwidth Hsize].
  by cbn [fst snd] in *.
Qed.

(** ** The evaluation of the estimators *)





(** ** A cell that raises ends the run *)

Lemma run_bind {L A B} (lib : action -> World L -> (exn + val) * World L)
    (p : prog A) (f : A -> prog B) (w : World L) :
  run lib (bind p f) w =
  match run lib p w with
  | (t, w', inl e) => (t, w', inl e)
  | (t, w', inr a) => let '(t2, w2, o) := run lib (f a) w' in ((t ++ t2)%list, w2, o)
  end.
Proof.
  revert w. induction p as [a | e | a k IH]; intros w; cbn.
  - by destruct (run lib (f a) w) as [[t2 w2] o].
  - done.
  - destruct (handle lib a w) as [[e | v] w']; [done |].
    rewrite IH. destruct (run lib (k v) w') as [[t w''] [e | x]]; [done |].
    by destruct (run lib (f x) w'') as [[t2 w2] o].
Qed.

Lemma run_exec_app_raises {L} (lib : action -> World L -> (exn + val) * World L)
    (c rest : list stmt) (env : Env) (w : World L) t w' e :
  run lib (exec c env) w = (t, w', inl e) ->
  run lib (exec (c ++ rest) env) w = (t, w', inl e).
Proof.
  revert env w t. induction c as [| s c IH]; intros env w t; cbn [exec app].
  - cbn. congruence.
  - rewrite !run_bind.
    destruct (run lib (s env) w) as [[t1 w1] [e1 | env1]]; [done |].
    destruct (run lib (exec c env1) w1) as [[t2 w2] [e2 | env2]] eqn:Hc; [| done].
    intros [= <- <- <-]. by rewrite (IH _ _ _ Hc).
Qed.

(** C8. The first cell calls [os.mkdir('descriptors')] before
    [calc_3d_pmapper], with nothing that guards it: when the directory
    exists, from any namespace, the cell raises [FileExistsError] at that
    call, the world is as it was, and so "Run All" stops there without any
    descriptor calculation. *)
Theorem mkdir_raises_when_folder_exists {L} (lib : action -> World L -> (exn + val) * World L)
    (w : World L) (env : Env) :
  "descriptors" ∈ dirs w ->
  run_cell lib Notebook.cell_descriptors env w = (mkdir_raises, w, inl FileExistsError) /\
  run_all lib w = (mkdir_raises, w, inl FileExistsError) /\
  Forall (fun e => stage_of (ev_act e) <> Some Descriptors) (trace_of (run_all lib w)).
Proof.
  intros Hdir.
  assert (Hcell : forall env0 : Env,
    run_cell lib Notebook.cell_descriptors env0 w = (mkdir_raises, w, inl FileExistsError)).
  { intros env0. unfold run_cell, Notebook.cell_descriptors.
    cbn [exec bind import from_import assign do mcall attr name lit eval_list eval_kw
         perform foldl].
    rewrite !lookup_insert_ne by done. rewrite lookup_insert_eq.
    cbn [bind run].
    change (handle lib (AGetattr (VSym "os") "path") w) with (inr (VSym "os.path") : exn + val, w).
    cbn [bind run].
    change (handle lib (AMethod (VSym "os.path") "join" [VStr "descriptors"] []) w)
      with (inr (VStr "descriptors") : exn + val, w).
    cbn [bind run eval_list eval_kw name mcall do perform].
    rewrite !lookup_insert_ne by done. rewrite lookup_insert_eq.
    rewrite lookup_insert_eq.
    cbn [bind run]. rewrite handle_mkdir.
    by rewrite bool_decide_eq_true_2 by (by apply elem_of_union_l). }
  split; [apply Hcell |].
  assert (Hall : run_all lib w = (mkdir_raises, w, inl FileExistsError)).
  { unfold run_all, Notebook.program, Notebook.cells. cbn [concat].
    apply run_exec_app_raises. apply Hcell. }
  split; [done |]. rewrite Hall. unfold trace_of, mkdir_raises. cbn [fst].
  repeat constructor; by vm_compute.
Qed.

Lemma mkdir_raises_when_folder_exists_witness :
  "descriptors" ∈ dirs Demo.used_world /\
  run_all Demo.lib Demo.used_world = (mkdir_raises, Demo.used_world, inl FileExistsError).
Proof.
  assert (H : "descriptors" ∈ dirs Demo.used_world) by (by apply elem_of_singleton_2).
  split; [exact H |].
  exact (proj1 (proj2 (mkdir_raises_when_folder_exists Demo.lib Demo.used_world ∅ H))).
Defined.

(** ** The seed of the split *)

Lemma notebook_seed {L} (lib : action -> World L -> (exn + val) * World L) (w : World L) :
  wp lib (pointwise fixes_seed) (exec Notebook.program ∅) w tt (fun _ _ _ => True).
Proof.
  unfold_notebook. norm_state.
  repeat (step ltac:(vm_compute; intros; first [discriminate | reflexivity])).
  all: exact I.
Qed.

(** Both calls of [train_test_split] pass [random_state=42] and no other
    keyword. *)
Lemma split_calls_fix_the_seed {L} (lib : action -> World L -> (exn + val) * World L)
    (w : World L) :
  Forall (fun e => fixes_seed (ev_act e)) (trace_of (run_all lib w)).
Proof.
  apply accepts_pointwise.
  exact (proj1 (run_all_wp lib _ _ _ w (notebook_seed lib w))).
Qed.

(** ** A run that completes *)

(** The library of [Demo] answers every call, so the run goes through all
    the cells. *)
Lemma demo_run_completes :
  completed (outcome_of (run_all Demo.lib Demo.fresh_world)) /\
  ops_of (trace_of (run_all Demo.lib Demo.fresh_world)) = Ops.all /\
  stages_of (trace_of (run_all Demo.lib Demo.fresh_world)) = pipeline.
Proof. by vm_compute. Qed.

Example demo_output :
  stdout (world_of (run_all Demo.lib Demo.fresh_world)) =
  [ "There are 0.50 molecules encoded with 0.50 pmapper descriptors";
    "3D/MI/Instance-Wrapper: r2_score test = 0.50";
    "3D/MI/Bag-AttentionNet: r2_score test = 0.50";
    "There are 0.50 molecules encoded with 0.50 pmapper descriptors";
    "3D/SI/Net: r2_score test = 0.50" ].
Proof. by vm_compute. Qed.

(** ** Settings, storage and unpacking *)

Ltac plain_ob :=
  vm_compute; repeat split;
  first [ reflexivity | exact I | in_list | (intros; discriminate) ].

Ltac plain_end :=
  vm_compute; split;
  [ first [ exact I | reflexivity
          | split; [ first [ intros ?; discriminate | intros [] ] | reflexivity ] ]
  | first [ exact I | reflexivity ] ].

Lemma notebook_plain {L} (lib : action -> World L -> (exn + val) * World L) (w : World L) :
  wp lib (both (both (both (pointwise leaves_unused) settings) storing) unpacking)
    (exec Notebook.program ∅) w (tt, None, many_then_one, Nothing) plain_end.
Proof.
  unfold_notebook. norm_state.
  repeat (step ltac:(plain_ob)).
  all: plain_end.
Qed.

Lemma plain_parts {L} (lib : action -> World L -> (exn + val) * World L) (w : World L) :
  let t := trace_of (run_all lib w) in
  Forall (fun e => leaves_unused (ev_act e)) t /\
  accepts settings None t /\
  (accepts storing many_then_one t /\
   match outcome_of (run_all lib w) with
   | inr _ => rounds (after storing many_then_one t) = []
   | inl _ => True
   end) /\
  accepts unpacking Nothing t /\
  unpacking_end (after unpacking Nothing t) (outcome_of (run_all lib w)).
Proof.
  destruct (run_all_wp lib _ _ _ w (notebook_plain lib w)) as [Hacc Hend].
  generalize dependent (run_all lib w). intros r Hacc Hend. cbn zeta.
  apply accepts_both in Hacc. destruct Hacc as [Hacc Hunpack].
  apply accepts_both in Hacc. destruct Hacc as [Hacc Hstore].
  apply accepts_both in Hacc. destruct Hacc as [Hunused Hset].
  cbn [fst snd] in Hunused, Hset, Hstore, Hunpack.
  apply accepts_pointwise in Hunused.
  rewrite !after_both in Hend. unfold plain_end in Hend. cbn [fst snd] in Hend.
  destruct Hend as [Hend1 Hend2].
  repeat split; try done.
Qed.




Lemma run_unpacks_own {L A} (lib : action -> World L -> (exn + val) * World L)
    (p : prog A) (w : World L) :
  Forall unpacks_own (trace_of (run lib p w)).
Proof.
  revert w. induction p as [a | e | a k IH]; intros w; cbn; [by constructor | by constructor |].
  assert (Ha : unpacks_own (Ev a (handle lib a w).1)).
  { destruct a as [f args kw | recv m args kw | v x | v i | v n]; try exact I.
    intros r Hr. unfold handle. cbn. by rewrite Hr. }
  destruct (handle lib a w) as [[e | v] w']; cbn in Ha |- *; [by repeat constructor |].
  specialize (IH v w'). destruct (run lib (k v) w') as [[t w''] o].
  by constructor.
Qed.

(** X4. What [calc_3d_pmapper], [train_test_split] and [scale_descriptors]
    return is unpacked by the very next action, into three, six and two
    names, whatever it is, and nothing else is unpacked.  A tuple or list
    gives its elements, a str its characters, a dict its keys; [None], a
    bool, an int and a float raise [TypeError]; an object of a library
    gives what the library answers.  The run goes on after an unpacking
    only when it gave as many items as there are names; otherwise it ends
    there, with [ValueError] when the items are too few or too many, and
    with [TypeError] when the answer is no sequence of items. *)
Theorem answers_are_unpacked_or_the_run_ends {L}
    (lib : action -> World L -> (exn + val) * World L) (w : World L) :
  accepts unpacking Nothing (trace_of (run_all lib w)) /\
  unpacking_end (after unpacking Nothing (trace_of (run_all lib w)))
    (outcome_of (run_all lib w)) /\
  Forall unpacks_own (trace_of (run_all lib w)) /\
  match outcome_of (run_all lib w) with
  | inr _ => True
  | inl x => stopped_by (trace_of (run_all lib w)) x
  end.
Proof.
  split; [exact (proj1 (proj2 (proj2 (proj2 (plain_parts lib w))))) |].
  split; [exact (proj2 (proj2 (proj2 (proj2 (plain_parts lib w))))) |].
  split; [apply run_unpacks_own | apply run_goes_on].
Qed.

(** X5. The input width given to each of the three estimators is
    [x_train[0].shape[-1]], read just before from the train bags that the
    last scaling returned. *)
Theorem input_width_is_read_from_scaled_bags {L}
    (lib : action -> World L -> (exn + val) * World L) (w : World L) :
  accepts width nothing_read (trace_of (run_all lib w)).
Proof. exact (proj1 (reads_parts lib w)). Qed.


(** X7. The instance weights are asked of the attention network, on the
    scaled test bags; the bar plot gets, for the bag of index 2 of these
    weights, [list(range(len(...)))] as [x] and the weights as [y]; the axis
    labels are set on the plot that [barplot] returned. *)
Theorem plot_shows_weights_of_third_test_bag {L}
    (lib : action -> World L -> (exn + val) * World L) (w : World L) :
  accepts plotting nothing_read (trace_of (run_all lib w)).
Proof. exact (proj2 (proj2 (reads_parts lib w))). Qed.

(** ** The namespace when the run is over *)



(** ** Cells run out of order *)

Lemma not_builtin (x : string) :
  bool_decide (x ∈ builtin_names) = false ->
  forall env : Env, env !! x = None -> name x env = Throw (NameError x).
Proof. intros Hx env Henv. unfold name. by rewrite Henv, Hx. Qed.

(** X10. Run in a namespace where [bags] is not bound, as before the first
    cell has gone through, the split cell raises [NameError] for [bags]
    without any action. *)
Theorem split_cell_needs_the_bags {L} (lib : action -> World L -> (exn + val) * World L)
    (w : World L) (env : Env) :
  env !! "bags" = None ->
  run_cell lib Notebook.cell_split env w = ([], w, inl (NameError "bags")).
Proof.
  intros Hbags. unfold run_cell, Notebook.cell_split.
  cbn [exec bind from_import assign_tuple call eval_list eval_kw foldl].
  rewrite (not_builtin "bags") by (by rewrite ?lookup_insert_ne by done).
  unfold name at 1. rewrite lookup_insert_ne by done. rewrite lookup_insert_eq.
  reflexivity.
Qed.

Lemma split_cell_needs_the_bags_witness :
  (∅ : Env) !! "bags" = None /\
  run_cell Demo.lib Notebook.cell_split ∅ Demo.fresh_world =
    ([], Demo.fresh_world, inl (NameError "bags")).
Proof.
  split; [reflexivity |].
  apply (split_cell_needs_the_bags Demo.lib Demo.fresh_world ∅). reflexivity.
Defined.

(** X11. Run in a namespace where [x_train] is not bound, as before the
    split cell has gone through, the two cells that train an estimator on
    the 100 conformations raise [NameError] for [x_train] without any
    action: no estimator is instantiated. *)
Theorem training_cells_need_the_split {L} (lib : action -> World L -> (exn + val) * World L)
    (w : World L) (env : Env) :
  env !! "x_train" = None ->
  run_cell lib Notebook.cell_instance_wrapper env w = ([], w, inl (NameError "x_train")) /\
  run_cell lib Notebook.cell_attention env w = ([], w, inl (NameError "x_train")).
Proof.
  intros Hx. unfold run_cell, Notebook.cell_instance_wrapper, Notebook.cell_attention,
    Notebook.ndim_expr.
  cbn [exec bind assign tuple index attr eval_list].
  by rewrite (not_builtin "x_train").
Qed.

Lemma training_cells_need_the_split_witness :
  (∅ : Env) !! "x_train" = None /\
  run_cell Demo.lib Notebook.cell_instance_wrapper ∅ Demo.fresh_world =
    ([], Demo.fresh_world, inl (NameError "x_train")).
Proof.
  split; [reflexivity |].
  apply (training_cells_need_the_split Demo.lib Demo.fresh_world ∅). reflexivity.
Defined.

(** X12. The cell of the single conformation imports nothing: run in a
    namespace where [calc_3d_pmapper] is not bound, as in a fresh kernel,
    it raises [NameError] for it without any action. *)
Theorem single_cell_needs_the_first_cell {L} (lib : action -> World L -> (exn + val) * World L)
    (w : World L) (env : Env) :
  env !! "calc_3d_pmapper" = None ->
  run_cell lib Notebook.cell_single env w = ([], w, inl (NameError "calc_3d_pmapper")).
Proof.
  intros Hc. unfold run_cell, Notebook.cell_single.
  cbn [exec bind assign_tuple call].
  by rewrite (not_builtin "calc_3d_pmapper").
Qed.

Lemma single_cell_needs_the_first_cell_witness :
  (∅ : Env) !! "calc_3d_pmapper" = None /\
  run_cell Demo.lib Notebook.cell_single ∅ Demo.fresh_world =
    ([], Demo.fresh_world, inl (NameError "calc_3d_pmapper")).
Proof.
  split; [reflexivity |].
  apply (single_cell_needs_the_first_cell Demo.lib Demo.fresh_world ∅). reflexivity.
Defined.
